(** * image-service: the HTTP surface of [services/image-service/app.py]

    A shallow embedding of the Flask application: the module-level
    configuration read from the environment, the Prometheus metrics the
    handlers mutate, the start-up log and the view functions [health],
    [ready], [index], [status], [process] and [storage_info], followed by
    the properties of their responses and of sequences of calls. *)

From Stdlib Require Import String List ZArith QArith Qround Lia Lqa.
From stdpp Require Import base option strings gmap.

Open Scope string_scope.
Open Scope Z_scope.

(** ** Python values *)

(** The values that travel through the handlers: what [request.get_json()]
    yields and what [jsonify] receives.  A dict keeps its insertion order,
    so it is an association list. *)
#[local] Set Warnings "-register-all".

Inductive pyobj : Type :=
| VNone
| VBool (b : bool)
| VInt (n : Z)
| VFloat (q : Q)
| VStr (s : string)
| VList (l : list pyobj)
| VDict (d : list (string * pyobj)).

(** Truth value of what [os.getenv] or [headers.get] returns: [None] and
    the empty string are false, every other string is true. *)
Definition truth (v : option string) : bool :=
  match v with
  | Some (String _ _) => true
  | Some EmptyString => false
  | None => false
  end.

(** Truth value of a decoded JSON document. *)
Definition obj_truth (o : pyobj) : bool :=
  match o with
  | VNone => false
  | VBool b => b
  | VInt n => negb (n =? 0)
  | VFloat q => negb (Qeq_bool q 0)
  | VStr s => truth (Some s)
  | VList l => match l with [] => false | _ :: _ => true end
  | VDict d => match d with [] => false | _ :: _ => true end
  end.

(** [a and b]: the first operand when it is false, else the second. *)
Definition py_and (a b : option string) : option string :=
  if truth a then b else a.

(** [all(xs)] over a list of environment values. *)
Definition py_all (xs : list (option string)) : bool := forallb truth xs.

(** [a or d] and [a if a else d] with a string literal [d]. *)
Definition py_or (a : option string) (d : string) : string :=
  match a with
  | Some s => if truth a then s else d
  | None => d
  end.

(** [d.get(k)] on the pairs of a dict (its keys are distinct). *)
Fixpoint dict_get (k : string) (d : list (string * pyobj)) : option pyobj :=
  match d with
  | [] => None
  | (k', v) :: d' => if String.eqb k k' then Some v else dict_get k d'
  end.

(** Exceptions [process] can leave through: the two aborts of
    [request.get_json()] (a body that is not JSON, a content type that is
    not JSON) and a method call on a value that lacks it. *)
Inductive exn : Type :=
| BadRequest
| UnsupportedMediaType
| AttributeError.

Inductive outcome (A : Type) : Type :=
| Returns (a : A)
| Raises (e : exn).
Arguments Returns {A} a.
Arguments Raises {A} e.

(** [data.get(k, dflt)]: only a dict has the method. *)
Definition py_get (data : pyobj) (k : string) (dflt : pyobj) : outcome pyobj :=
  match data with
  | VDict d => Returns (default dflt (dict_get k d))
  | _ => Raises AttributeError
  end.

(** ** The process: environment, module globals, metrics *)

(** [os.getenv(k)] is a lookup in the process environment. *)
Definition getenv (environ : gmap string string) (k : string) : option string :=
  environ !! k.

Definition getenv_or (environ : gmap string string) (k d : string) : string :=
  default d (environ !! k).

(** The names bound when the module is imported (lines 12-16 and 25). *)
Record Process : Type := {
  environ : gmap string string;
  JWT_SECRET : option string;
  IMAGE_SERVICE_TOKEN : option string;
  S3_ACCESS_KEY : option string;
  S3_SECRET_KEY : option string;
  S3_BUCKET : option string;
  start_time : Q
}.

(** Module initialisation at clock reading [t0]. *)
Definition boot (env : gmap string string) (t0 : Q) : Process := {|
  environ := env;
  JWT_SECRET := getenv env "JWT_SECRET";
  IMAGE_SERVICE_TOKEN := getenv env "IMAGE_SERVICE_TOKEN";
  S3_ACCESS_KEY := getenv env "S3_ACCESS_KEY";
  S3_SECRET_KEY := getenv env "S3_SECRET_KEY";
  S3_BUCKET := getenv env "S3_BUCKET";
  start_time := t0
|}.

(** The configuration facts, as the start-up log lines 20-22 decide
    between "Configured" and "Missing". *)
Definition jwtSecretPresent (p : Process) : bool := truth (JWT_SECRET p).
Definition serviceTokenPresent (p : Process) : bool := truth (IMAGE_SERVICE_TOKEN p).
Definition s3AccessKeyPresent (p : Process) : bool := truth (S3_ACCESS_KEY p).

(** The bucket name when one is configured. *)
Definition s3Bucket (p : Process) : option string :=
  if truth (S3_BUCKET p) then S3_BUCKET p else None.

(** [request_count] is a labelled counter, one child per (method, endpoint);
    [processing_time] keeps the observed durations, newest first. *)
Record Metrics : Type := {
  request_count : gmap (string * string) nat;
  processing_time : list Q
}.

Definition counter_value (m : Metrics) (method endpoint : string) : nat :=
  default 0%nat (request_count m !! (method, endpoint)).

(** What one request reads from the clocks. *)
Record Clock : Type := {
  time_time : Q;          (* time.time() *)
  utcnow_iso : string;    (* datetime.utcnow().isoformat() *)
  elapsed : Q             (* duration measured by processing_time.time() *)
}.

(** What [process] reads from [flask.request]. *)
Record Request : Type := {
  authorization : option string;   (* request.headers.get('Authorization') *)
  get_json : outcome pyobj         (* request.get_json() *)
}.

Inductive Body : Type :=
| Json (o : pyobj)       (* jsonify(o) *)
| ErrorPage.             (* werkzeug's page for an aborted request *)

Record Response : Type := {
  body : Body;
  status_code : Z
}.

(** ** Views as state transformers over the metrics *)

Definition View (A : Type) : Type := Metrics -> A * Metrics.

Definition ret {A} (a : A) : View A := fun m => (a, m).

Definition bind {A B} (v : View A) (k : A -> View B) : View B :=
  fun m => let '(a, m') := v m in k a m'.

Notation "x <- c1 ;; c2" := (bind c1 (fun x => c2))
  (at level 100, c1 at next level, right associativity).
Notation "c1 ;; c2" := (bind c1 (fun _ => c2))
  (at level 100, right associativity).

(** [request_count.labels(method, endpoint).inc()] *)
Definition inc (method endpoint : string) : View unit := fun m =>
  (tt, {| request_count :=
            <[(method, endpoint) := S (counter_value m method endpoint)]>
              (request_count m);
          processing_time := processing_time m |}).

(** [processing_time.observe(d)], called when the timed block is left. *)
Definition observe (d : Q) : View unit := fun m =>
  (tt, {| request_count := request_count m;
          processing_time := d :: processing_time m |}).

(** [return jsonify(o)] and [return jsonify(o), code] *)
Definition jsonify (o : pyobj) : Response :=
  {| body := Json o; status_code := 200 |}.
Definition jsonify_code (o : pyobj) (code : Z) : Response :=
  {| body := Json o; status_code := code |}.

(** Error handlers (lines 136-142). *)
Definition not_found : Response :=
  jsonify_code (VDict [("error", VStr "Endpoint not found")]) 404.

Definition internal_error : Response :=
  jsonify_code (VDict [("error", VStr "Internal server error")]) 500.

(** What Flask answers when a view raises: an abort whose code has no
    registered handler (only 404 and 500 have one) becomes the built-in page
    with that code; any other exception goes to the 500 handler. *)
Definition handle_exception (e : exn) : Response :=
  match e with
  | BadRequest => {| body := ErrorPage; status_code := 400 |}
  | UnsupportedMediaType => {| body := ErrorPage; status_code := 415 |}
  | AttributeError => internal_error
  end.

(** Sequencing of computations that may raise. *)
Definition try_bind {A B} (c : outcome A) (k : A -> outcome B) : outcome B :=
  match c with
  | Returns a => k a
  | Raises e => Raises e
  end.

Notation "x <-? c1 ;; c2" := (try_bind c1 (fun x => c2))
  (at level 100, c1 at next level, right associativity).

(** [with processing_time.time(): c]: the duration is observed when the
    block is left, by return or by exception. *)
Definition timed {A} (clk : Clock) (c : outcome A) : View (outcome A) :=
  observe (elapsed clk) ;; ret c.

Section Views.

(** [time.time()] yields binary floating-point numbers.  A difference of
    two of them is the exact difference rounded; the views are defined
    for any rounding [rnd]. *)
Variable rnd : Q -> Q.

Definition fsub (x y : Q) : Q := rnd (x - y).

(** [GET /health] *)
Definition health (p : Process) (clk : Clock) : View Response :=
  ret (jsonify (VDict [
    ("status", VStr "healthy");
    ("service", VStr "image-service");
    ("version", VStr (getenv_or (environ p) "VERSION" "1.0.0"));
    ("uptime", VFloat (fsub (time_time clk) (start_time p)))])).

(** [GET /ready] *)
Definition ready (p : Process) : View Response :=
  let is_ready := py_all [IMAGE_SERVICE_TOKEN p; S3_ACCESS_KEY p] in
  if is_ready then
    ret (jsonify (VDict [("ready", VBool true); ("message", VStr "Service ready")]))
  else
    ret (jsonify_code
           (VDict [("ready", VBool false); ("message", VStr "Missing configuration")])
           503).

(** [GET /] *)
Definition index : View Response :=
  ret (jsonify (VDict [
    ("service", VStr "image-service");
    ("version", VStr "1.0.0");
    ("endpoints", VList [VStr "/health"; VStr "/ready"; VStr "/status";
                         VStr "/process"; VStr "/storage-info"; VStr "/metrics"])])).

(** [GET /status] *)
Definition status (p : Process) (clk : Clock) : View Response :=
  inc "GET" "/status" ;;
  ret (jsonify (VDict [
    ("operational", VBool true);
    ("timestamp", VStr (utcnow_iso clk));
    ("processed_images", VInt 42);
    ("using_secrets", VBool (truth (py_and (IMAGE_SERVICE_TOKEN p) (S3_ACCESS_KEY p))))])).

(** The block of [process] under the timer (lines 90-108). *)
Definition process_result (p : Process) (clk : Clock) (req : Request)
  : outcome pyobj :=
  j <-? get_json req ;;
  let data := if obj_truth j then j else VDict [] in
  image_name <-? py_get data "image" (VStr "unknown.jpg") ;;
  user <-? py_get data "user" (VStr "anonymous") ;;
  Returns (VDict [
    ("processed", VBool true);
    ("image", image_name);
    ("user", user);
    ("operations", VList [VStr "resize"; VStr "compress"; VStr "optimize"]);
    ("storage", VDict [
       ("provider", VStr "S3-compatible");
       ("bucket", VStr (py_or (S3_BUCKET p) "default-bucket"));
       ("configured", VBool (truth (S3_ACCESS_KEY p)))]);
    ("timestamp", VStr (utcnow_iso clk))]).

(** [POST /process] *)
Definition process (p : Process) (clk : Clock) (req : Request) : View Response :=
  inc "POST" "/process" ;;
  let auth_header := authorization req in
  if negb (truth auth_header) && truth (IMAGE_SERVICE_TOKEN p) then
    ret (jsonify_code (VDict [("error", VStr "Unauthorized")]) 401)
  else
    (r <- timed clk (process_result p clk req) ;;
     match r with
     | Returns result => ret (jsonify result)
     | Raises e => ret (handle_exception e)
     end).

(** [GET /storage-info] *)
Definition storage_info (p : Process) : View Response :=
  if negb (truth (S3_ACCESS_KEY p)) then
    ret (jsonify_code
           (VDict [("error", VStr "Storage not configured");
                   ("hint", VStr "S3 credentials missing from Kubernetes Secrets")])
           500)
  else
    ret (jsonify (VDict [
      ("configured", VBool true);
      ("provider", VStr "S3-compatible");
      ("bucket", VStr (py_or (S3_BUCKET p) "default-bucket"));
      ("region", VStr (getenv_or (environ p) "S3_REGION" "us-east-1"));
      ("operations_available",
         VList [VStr "upload"; VStr "download"; VStr "list"; VStr "delete"]);
      ("message", VStr "Using S3 credentials from Kubernetes Secrets")])).

End Views.

(** ** Reading a response *)

(** [o[k]] on a JSON object. *)
Definition field (k : string) (o : pyobj) : option pyobj :=
  match o with
  | VDict d => dict_get k d
  | _ => None
  end.

(** [o[k1][k2]...] *)
Fixpoint at_path (ks : list string) (o : pyobj) : option pyobj :=
  match ks with
  | [] => Some o
  | k :: ks' =>
      match field k o with
      | Some o' => at_path ks' o'
      | None => None
      end
  end.

(** A member of the JSON body of a response. *)
Definition json_at (ks : list string) (r : Response) : option pyobj :=
  match body r with
  | Json o => at_path ks o
  | ErrorPage => None
  end.

(** A round-to-millisecond clock difference, one instance of [rnd]. *)
Definition round_ms (q : Q) : Q := inject_Z (Qfloor (q * 1000)) / 1000.

(** Concrete processes, clock readings, requests and metrics. *)
Definition no_metrics : Metrics :=
  {| request_count := ∅; processing_time := [] |}.

Definition noon : Clock :=
  {| time_time := 1700000000; utcnow_iso := "2023-11-14T22:13:20";
     elapsed := 1 # 10 |}.

Definition later : Clock :=
  {| time_time := 1700000005 + (1 # 3); utcnow_iso := "2023-11-14T22:13:25.333333";
     elapsed := 1 # 10 |}.

Definition full_env : gmap string string :=
  <["IMAGE_SERVICE_TOKEN" := "tok"]>
    (<["S3_ACCESS_KEY" := "AKIA"]>
       (<["S3_BUCKET" := "images"]> (<["VERSION" := "2.3.1"]> ∅))).

Definition other_bucket_env : gmap string string :=
  <["IMAGE_SERVICE_TOKEN" := "tok"]>
    (<["S3_ACCESS_KEY" := "AKIA"]> (<["S3_BUCKET" := "thumbnails"]> ∅)).

Definition cat_request : Request :=
  {| authorization := Some "Bearer garbage";
     get_json := Returns (VDict [("image", VStr "cat.jpg"); ("user", VStr "alice")]) |}.

Definition empty_header_request : Request :=
  {| authorization := Some ""; get_json := Returns (VDict []) |}.


(** ** Start-up log and the life of a process *)

(** The four [app.logger.info] lines written when the module is imported
    (lines 19-22). *)
Definition startup_log (p : Process) : list string :=
  [ "🔐 Image Service Configuration:";
    String.append "  JWT Secret: "
      (if truth (JWT_SECRET p) then "✅ Configured" else "❌ Missing");
    String.append "  Service Token: "
      (if truth (IMAGE_SERVICE_TOKEN p) then "✅ Configured" else "❌ Missing");
    String.append "  S3 Credentials: "
      (if truth (S3_ACCESS_KEY p) then "✅ Configured" else "❌ Missing") ].

(** One invocation of a view function by the framework. *)
Inductive Call : Type :=
| CallHealth
| CallReady
| CallIndex
| CallStatus
| CallProcess (req : Request)
| CallStorageInfo.

Definition serve (rnd : Q -> Q) (p : Process) (clk : Clock) (c : Call)
  : View Response :=
  match c with
  | CallHealth => health rnd p clk
  | CallReady => ready p
  | CallIndex => index
  | CallStatus => status p clk
  | CallProcess req => process p clk req
  | CallStorageInfo => storage_info p
  end.

(** The invocations of one process, in order, on the module-level metrics. *)
Fixpoint run (rnd : Q -> Q) (p : Process) (calls : list (Clock * Call))
  : View (list Response) :=
  match calls with
  | [] => ret []
  | (clk, c) :: rest =>
      (r <- serve rnd p clk c ;; rs <- run rnd p rest ;; ret (r :: rs))
  end.

(** The test of line 86, negated: the request gets past the check. *)
Definition admitted (p : Process) (req : Request) : bool :=
  negb (negb (truth (authorization req)) && truth (IMAGE_SERVICE_TOKEN p)).

Definition is_status (c : Call) : bool :=
  match c with CallStatus => true | _ => false end.

Definition is_process (c : Call) : bool :=
  match c with CallProcess _ => true | _ => false end.

Definition is_admitted_process (p : Process) (c : Call) : bool :=
  match c with CallProcess req => admitted p req | _ => false end.

Fixpoint count_calls (f : Call -> bool) (calls : list (Clock * Call)) : nat :=
  match calls with
  | [] => 0%nat
  | (_, c) :: rest => ((if f c then 1 else 0) + count_calls f rest)%nat
  end.

(** What a client can tell two processes apart by: the presence of the
    token and of the S3 key, the bucket, the two variables read at request
    time, and the start time. *)
Definition same_public (p1 p2 : Process) : Prop :=
  serviceTokenPresent p1 = serviceTokenPresent p2 /\
  s3AccessKeyPresent p1 = s3AccessKeyPresent p2 /\
  s3Bucket p1 = s3Bucket p2 /\
  environ p1 !! "VERSION" = environ p2 !! "VERSION" /\
  environ p1 !! "S3_REGION" = environ p2 !! "S3_REGION" /\
  start_time p1 = start_time p2.

Definition other_secrets_env : gmap string string :=
  <["IMAGE_SERVICE_TOKEN" := "another-token"]>
    (<["S3_ACCESS_KEY" := "AKIB"]>
       (<["S3_SECRET_KEY" := "s3cr3t"]>
          (<["JWT_SECRET" := "jwt-signing-key"]>
             (<["S3_BUCKET" := "images"]> (<["VERSION" := "2.3.1"]> ∅))))).

Definition s3_only_env : gmap string string :=
  <["S3_ACCESS_KEY" := "AKIA"]> ∅.

Definition list_request : Request :=
  {| authorization := Some "Bearer x";
     get_json := Returns (VList [VStr "cat.jpg"]) |}.

Definition zero_request : Request :=
  {| authorization := Some "Bearer x"; get_json := Returns (VInt 0) |}.

Definition broken_request : Request :=
  {| authorization := Some "Bearer x"; get_json := Raises BadRequest |}.

Definition anonymous_request : Request :=
  {| authorization := None; get_json := Returns (VDict []) |}.

Definition busy_day : list (Clock * Call) :=
  [ (noon, CallHealth); (noon, CallProcess cat_request); (noon, CallStatus);
    (later, CallProcess anonymous_request); (later, CallProcess list_request);
    (later, CallReady); (later, CallStatus); (later, CallStorageInfo);
    (later, CallProcess broken_request); (later, CallIndex) ].

Definition quiet_day : list (Clock * Call) :=
  [ (noon, CallHealth); (noon, CallReady); (later, CallIndex);
    (later, CallStorageInfo); (later, CallHealth) ].

(** ** Truth values *)

Lemma truth_false_iff (v : option string) :
  truth v = false <-> v = None \/ v = Some "".
Proof.
  destruct v as [[|c s]|]; simpl; split; intros H; auto;
    try discriminate; destruct H as [H|H]; discriminate.
Qed.

Lemma truth_true_iff (v : option string) :
  truth v = true <-> exists c s, v = Some (String c s).
Proof.
  destruct v as [[|c s]|]; simpl; split; intros H;
    try discriminate; try (destruct H as (c' & s' & H); discriminate); eauto.
Qed.

Lemma py_all_pair (a b : option string) :
  py_all [a; b] = truth a && truth b.
Proof. unfold py_all; simpl. now rewrite andb_true_r. Qed.

Lemma truth_py_and (a b : option string) :
  truth (py_and a b) = truth a && truth b.
Proof. unfold py_and. destruct (truth a) eqn:Ha; simpl; auto. Qed.

Lemma py_or_configured (a : option string) (d : string) :
  py_or a d = default d (if truth a then a else None).
Proof. destruct a as [[|c s]|]; reflexivity. Qed.

(** The bucket written into a response: the configured name, else the
    literal default. *)
Lemma bucket_or_default (p : Process) :
  py_or (S3_BUCKET p) "default-bucket" = default "default-bucket" (s3Bucket p).
Proof. apply py_or_configured. Qed.

(** ** Readiness *)

Definition ready_ok : Response :=
  {| body := Json (VDict [("ready", VBool true); ("message", VStr "Service ready")]);
     status_code := 200 |}.

Definition ready_missing : Response :=
  {| body := Json (VDict [("ready", VBool false);
                          ("message", VStr "Missing configuration")]);
     status_code := 503 |}.

Lemma ready_eq (p : Process) (m : Metrics) :
  ready p m =
  (if serviceTokenPresent p && s3AccessKeyPresent p then ready_ok else ready_missing, m).
Proof.
  unfold ready, serviceTokenPresent, s3AccessKeyPresent.
  rewrite py_all_pair.
  destruct (truth (IMAGE_SERVICE_TOKEN p) && truth (S3_ACCESS_KEY p)); reflexivity.
Qed.

(** C1: [GET /ready] answers 200 with [{ready: true, message: "Service ready"}]
    exactly when the service token and the S3 access key are both present,
    and 503 with [{ready: false, message: "Missing configuration"}] when
    either is absent. *)
Theorem ready_iff_token_and_s3_key (p : Process) (m : Metrics) :
  let r := fst (ready p m) in
  (r = ready_ok <-> serviceTokenPresent p = true /\ s3AccessKeyPresent p = true) /\
  (r = ready_missing <-> serviceTokenPresent p = false \/ s3AccessKeyPresent p = false) /\
  (status_code r = 200 <-> serviceTokenPresent p = true /\ s3AccessKeyPresent p = true) /\
  (r = ready_ok \/ r = ready_missing).
Proof.
  cbv zeta. rewrite ready_eq. simpl.
  destruct (serviceTokenPresent p), (s3AccessKeyPresent p); simpl;
    repeat split; intros; auto; try discriminate;
    repeat match goal with
           | H : _ /\ _ |- _ => destruct H
           | H : _ \/ _ |- _ => destruct H
           end; try discriminate; auto.
Qed.

(** C7: two configurations that agree on the presence of the service token
    and of the S3 access key get the same [GET /ready] response, whatever
    their bucket name or any other setting. *)
Theorem ready_depends_only_on_presence (p1 p2 : Process) (m1 m2 : Metrics) :
  serviceTokenPresent p1 = serviceTokenPresent p2 ->
  s3AccessKeyPresent p1 = s3AccessKeyPresent p2 ->
  fst (ready p1 m1) = fst (ready p2 m2).
Proof. intros Ht Hs. rewrite !ready_eq. simpl. now rewrite Ht, Hs. Qed.

Lemma ready_depends_only_on_presence_witness :
  S3_BUCKET (boot full_env 0) <> S3_BUCKET (boot other_bucket_env 7) /\
  environ (boot full_env 0) <> environ (boot other_bucket_env 7) /\
  fst (ready (boot full_env 0) no_metrics) =
  fst (ready (boot other_bucket_env 7) no_metrics).
Proof.
  split; [vm_compute; discriminate|].
  split.
  - intros H. apply (f_equal (fun e => e !! "VERSION")) in H.
    vm_compute in H. discriminate.
  - apply (ready_depends_only_on_presence (boot full_env 0) (boot other_bucket_env 7));
      vm_compute; reflexivity.
Defined.

(** ** Status and storage information *)

(** C5: whatever the configuration and the metrics, [GET /status] answers
    200 with [processed_images] equal to the constant 42 and [using_secrets]
    equal to "service token present and S3 access key present". *)
Theorem status_processed_images_is_42 (p : Process) (clk : Clock) (m : Metrics) :
  let r := fst (status p clk m) in
  status_code r = 200 /\
  json_at ["processed_images"] r = Some (VInt 42) /\
  json_at ["using_secrets"] r =
    Some (VBool (serviceTokenPresent p && s3AccessKeyPresent p)).
Proof.
  cbv zeta. unfold status, bind, inc, ret, json_at; simpl.
  rewrite truth_py_and. auto.
Qed.

(** The request counters do not reach the [status] response: two metrics
    states give the same answer. *)
Lemma status_response_ignores_counters (p : Process) (clk : Clock) (m m' : Metrics) :
  fst (status p clk m) = fst (status p clk m').
Proof. reflexivity. Qed.

Definition storage_unconfigured : Response :=
  {| body := Json (VDict [("error", VStr "Storage not configured");
                          ("hint", VStr "S3 credentials missing from Kubernetes Secrets")]);
     status_code := 500 |}.

(** C6: [GET /storage-info] answers 500 with the "Storage not configured"
    body exactly when no S3 access key is configured; otherwise 200 with
    [configured] true, provider "S3-compatible", the configured bucket or
    "default-bucket", the region of [S3_REGION] or "us-east-1", and the four
    available operations. *)
Theorem storage_info_response (p : Process) (m : Metrics) :
  let r := fst (storage_info p m) in
  (s3AccessKeyPresent p = false <-> r = storage_unconfigured) /\
  (s3AccessKeyPresent p = false <-> status_code r = 500) /\
  (s3AccessKeyPresent p = true <->
     status_code r = 200 /\
     json_at ["configured"] r = Some (VBool true) /\
     json_at ["provider"] r = Some (VStr "S3-compatible") /\
     json_at ["bucket"] r = Some (VStr (default "default-bucket" (s3Bucket p))) /\
     json_at ["region"] r =
       Some (VStr (default "us-east-1" (environ p !! "S3_REGION"))) /\
     json_at ["operations_available"] r =
       Some (VList [VStr "upload"; VStr "download"; VStr "list"; VStr "delete"])).
Proof.
  cbv zeta. unfold storage_info, s3AccessKeyPresent.
  rewrite bucket_or_default.
  destruct (truth (S3_ACCESS_KEY p)); simpl.
  - repeat split; intros; try discriminate; tauto.
  - repeat split; intros; try discriminate; auto.
    destruct H; discriminate.
Qed.

(** ** Health and index *)

(** C8: [GET /health] answers 200 and leaves the metrics as they were: no
    counter is incremented and no duration is recorded. *)
Theorem health_leaves_metrics_unchanged
    (rnd : Q -> Q) (p : Process) (clk : Clock) (m : Metrics) :
  status_code (fst (health rnd p clk m)) = 200 /\
  snd (health rnd p clk m) = m /\
  request_count (snd (health rnd p clk m)) = request_count m /\
  processing_time (snd (health rnd p clk m)) = processing_time m.
Proof. repeat split. Qed.

(** C10: the version of [GET /] is the literal "1.0.0", the version of
    [GET /health] is [VERSION] or "1.0.0" when it is unset; so a process
    whose [VERSION] is set to anything but "1.0.0" reports two different
    versions. *)
Theorem index_version_ignores_environment
    (rnd : Q -> Q) (p : Process) (clk : Clock) (m m' : Metrics) :
  json_at ["version"] (fst (index m)) = Some (VStr "1.0.0") /\
  json_at ["version"] (fst (health rnd p clk m')) =
    Some (VStr (default "1.0.0" (environ p !! "VERSION"))) /\
  (forall v : string,
      environ p !! "VERSION" = Some v -> v <> "1.0.0" ->
      json_at ["version"] (fst (health rnd p clk m')) <>
      json_at ["version"] (fst (index m))).
Proof.
  repeat split.
  intros v Hv Hne. unfold json_at, health, index, ret, getenv_or; simpl.
  rewrite Hv; simpl. intros H. apply Hne. congruence.
Qed.

(** A process started with [VERSION=2.3.1] answers "2.3.1" on [/health] and
    "1.0.0" on [/]. *)
Example versions_differ :
  json_at ["version"] (fst (health round_ms (boot full_env 0) noon no_metrics))
    = Some (VStr "2.3.1") /\
  json_at ["version"] (fst (index no_metrics)) = Some (VStr "1.0.0").
Proof. split; vm_compute; reflexivity. Qed.

Section Uptime.

Variable rnd : Q -> Q.
Hypothesis rnd_mono : forall x y : Q, (x <= y)%Q -> (rnd x <= rnd y)%Q.

Lemma fsub_mono (t1 t2 t0 : Q) : (t1 <= t2)%Q -> (fsub rnd t1 t0 <= fsub rnd t2 t0)%Q.
Proof. intros H. unfold fsub. apply rnd_mono. lra. Qed.

(** C9: within one process, two [GET /health] calls made at clock
    readings [t1 <= t2] report uptimes [u1 <= u2]. *)
Theorem health_uptime_monotone (p : Process) (clk1 clk2 : Clock) (m1 m2 : Metrics) :
  (time_time clk1 <= time_time clk2)%Q ->
  exists u1 u2 : Q,
    json_at ["uptime"] (fst (health rnd p clk1 m1)) = Some (VFloat u1) /\
    json_at ["uptime"] (fst (health rnd p clk2 m2)) = Some (VFloat u2) /\
    (u1 <= u2)%Q.
Proof.
  intros H.
  exists (fsub rnd (time_time clk1) (start_time p)),
         (fsub rnd (time_time clk2) (start_time p)).
  repeat split. now apply fsub_mono.
Qed.

End Uptime.

Lemma round_ms_mono (x y : Q) : (x <= y)%Q -> (round_ms x <= round_ms y)%Q.
Proof.
  intros H. unfold round_ms.
  apply Qmult_le_compat_r; [|vm_compute; discriminate].
  rewrite <- Zle_Qle. apply Qfloor_resp_le.
  apply Qmult_le_compat_r; [assumption|vm_compute; discriminate].
Qed.

Lemma health_uptime_monotone_witness :
  (time_time noon <= time_time later)%Q /\
  exists u1 u2 : Q,
    json_at ["uptime"] (fst (health round_ms (boot full_env (1699999999 + (1 # 7)))
                               noon no_metrics)) = Some (VFloat u1) /\
    json_at ["uptime"] (fst (health round_ms (boot full_env (1699999999 + (1 # 7)))
                               later no_metrics)) = Some (VFloat u2) /\
    (u1 <= u2)%Q.
Proof.
  split; [vm_compute; discriminate|].
  apply (health_uptime_monotone round_ms round_ms_mono).
  vm_compute; discriminate.
Defined.

(** ** Processing *)

Definition unauthorized : Response :=
  {| body := Json (VDict [("error", VStr "Unauthorized")]); status_code := 401 |}.

(** The two paths of [process]: the counter is incremented on both, the
    duration is observed only past the authorization check. *)
Lemma process_eq (p : Process) (clk : Clock) (req : Request) (m : Metrics) :
  process p clk req m =
  if negb (truth (authorization req)) && serviceTokenPresent p
  then (unauthorized, snd (inc "POST" "/process" m))
  else (match process_result p clk req with
        | Returns result => jsonify result
        | Raises e => handle_exception e
        end,
        snd (observe (elapsed clk) (snd (inc "POST" "/process" m)))).
Proof.
  unfold process, serviceTokenPresent, bind, timed, ret; simpl.
  destruct (negb (truth (authorization req)) && truth (IMAGE_SERVICE_TOKEN p));
    [reflexivity|].
  unfold bind; simpl. destruct (process_result p clk req); reflexivity.
Qed.

Lemma handle_exception_status (e : exn) :
  status_code (handle_exception e) = 400 \/
  status_code (handle_exception e) = 415 \/
  status_code (handle_exception e) = 500.
Proof. destruct e; simpl; auto. Qed.

Lemma counter_value_inc (m : Metrics) (method endpoint : string) :
  counter_value (snd (inc method endpoint m)) method endpoint
  = S (counter_value m method endpoint).
Proof. unfold counter_value at 1, inc; simpl. now rewrite lookup_insert_eq. Qed.

Lemma counter_value_inc_other (m : Metrics) (method endpoint method' endpoint' : string) :
  (method', endpoint') <> (method, endpoint) ->
  counter_value (snd (inc method endpoint m)) method' endpoint'
  = counter_value m method' endpoint'.
Proof.
  intros H. unfold counter_value, inc; simpl.
  rewrite lookup_insert_ne; [reflexivity|]. intros E. apply H. now symmetry.
Qed.

Lemma counter_value_observe (d : Q) (m : Metrics) (method endpoint : string) :
  counter_value (snd (observe d m)) method endpoint = counter_value m method endpoint.
Proof. reflexivity. Qed.

Lemma past_check_not_401 (o : outcome pyobj) :
  status_code match o with
              | Returns result => jsonify result
              | Raises e => handle_exception e
              end <> 401.
Proof.
  destruct o as [result|e]; [simpl; discriminate|].
  destruct (handle_exception_status e) as [H|[H|H]]; rewrite H; discriminate.
Qed.

(** The 401 answer is the early return and nothing else. *)
Lemma process_401_iff (p : Process) (clk : Clock) (req : Request) (m : Metrics) :
  status_code (fst (process p clk req m)) = 401 <->
  negb (truth (authorization req)) && serviceTokenPresent p = true.
Proof.
  rewrite process_eq.
  destruct (negb (truth (authorization req)) && serviceTokenPresent p); simpl.
  - tauto.
  - split; [|discriminate]. intros H. exfalso. now apply past_check_not_401 in H.
Qed.

Lemma process_rejected (p : Process) (clk : Clock) (req : Request) (m : Metrics) :
  negb (truth (authorization req)) && serviceTokenPresent p = true ->
  process p clk req m = (unauthorized, snd (inc "POST" "/process" m)).
Proof. intros H. rewrite process_eq, H. reflexivity. Qed.

Lemma process_admitted (p : Process) (clk : Clock) (req : Request) (m : Metrics) :
  negb (truth (authorization req)) && serviceTokenPresent p = false ->
  process p clk req m =
  (match process_result p clk req with
   | Returns result => jsonify result
   | Raises e => handle_exception e
   end,
   snd (observe (elapsed clk) (snd (inc "POST" "/process" m)))).
Proof. intros H. rewrite process_eq, H. reflexivity. Qed.

(** C2 as stated fails: a request whose Authorization header is present
    with the empty value is rejected with 401 when a token is configured. *)
Lemma empty_authorization_is_rejected :
  authorization empty_header_request = Some "" /\
  authorization empty_header_request <> None /\
  serviceTokenPresent (boot full_env 0) = true /\
  fst (process (boot full_env 0) noon empty_header_request no_metrics) = unauthorized.
Proof. repeat split; try discriminate; vm_compute; reflexivity. Qed.

(** C2, amended: [POST /process] is rejected with 401 [{error: "Unauthorized"}]
    exactly when the Authorization header is absent or empty and a service
    token is configured; a request with any non-empty header value, and any
    request when no token is configured, is not rejected with 401: the value
    is only tested for emptiness, never compared with the token. *)
Theorem process_unauthorized_iff (p : Process) (clk : Clock) (req : Request) (m : Metrics) :
  let r := fst (process p clk req m) in
  (status_code r = 401 <->
     (authorization req = None \/ authorization req = Some "") /\
     serviceTokenPresent p = true) /\
  (status_code r = 401 <-> r = unauthorized) /\
  (forall c s, authorization req = Some (String c s) -> status_code r <> 401) /\
  (serviceTokenPresent p = false -> status_code r <> 401).
Proof.
  cbv zeta. split; [|split; [|split]].
  - rewrite process_401_iff, <- truth_false_iff, andb_true_iff, negb_true_iff. tauto.
  - split.
    + intros H. apply process_401_iff in H. now rewrite (process_rejected _ _ _ _ H).
    + intros H. now rewrite H.
  - intros c s Hh H. apply process_401_iff in H. rewrite Hh in H. discriminate.
  - intros Ht H. apply process_401_iff in H. rewrite Ht, andb_false_r in H. discriminate.
Qed.

(** C3: every [POST /process] adds exactly one to the (POST, /process)
    counter and touches no other counter; this holds on the 401 path too,
    where the incremented counter is the whole change, so the metrics are
    never left as they were. *)
Theorem process_counts_every_attempt
    (p : Process) (clk : Clock) (req : Request) (m : Metrics) :
  let r := fst (process p clk req m) in
  let m' := snd (process p clk req m) in
  counter_value m' "POST" "/process" = S (counter_value m "POST" "/process") /\
  (forall method endpoint,
      (method, endpoint) <> ("POST", "/process") ->
      counter_value m' method endpoint = counter_value m method endpoint) /\
  (status_code r = 401 <-> m' = snd (inc "POST" "/process" m)) /\
  m' <> m.
Proof.
  cbv zeta.
  assert (Hinc : counter_value (snd (process p clk req m)) "POST" "/process"
                 = S (counter_value m "POST" "/process")).
  { destruct (negb (truth (authorization req)) && serviceTokenPresent p) eqn:Hc.
    - rewrite (process_rejected _ _ _ _ Hc). apply counter_value_inc.
    - rewrite (process_admitted _ _ _ _ Hc). cbn [snd].
      rewrite counter_value_observe. apply counter_value_inc. }
  split; [exact Hinc|]. split; [|split].
  - intros method endpoint Hne.
    destruct (negb (truth (authorization req)) && serviceTokenPresent p) eqn:Hc.
    + rewrite (process_rejected _ _ _ _ Hc). now apply counter_value_inc_other.
    + rewrite (process_admitted _ _ _ _ Hc). cbn [snd].
      rewrite counter_value_observe. now apply counter_value_inc_other.
  - rewrite process_401_iff.
    destruct (negb (truth (authorization req)) && serviceTokenPresent p) eqn:Hc.
    + rewrite (process_rejected _ _ _ _ Hc). simpl. tauto.
    + rewrite (process_admitted _ _ _ _ Hc). simpl. split; [discriminate|].
      intros H. apply (f_equal (fun x => length (processing_time x))) in H.
      simpl in H. lia.
  - intros H. rewrite H in Hinc. lia.
Qed.

(** A rejected request on fresh metrics: 401, and the counter reads 1. *)
Example rejected_request_is_counted :
  let '(r, m') := process (boot full_env 0) noon
                    {| authorization := None; get_json := Returns (VDict []) |}
                    no_metrics in
  status_code r = 401 /\ counter_value m' "POST" "/process" = 1%nat /\
  processing_time m' = [].
Proof. vm_compute. auto. Qed.

(** The dict a successful [process] returns, for the decoded body [d]. *)
Definition result_of (p : Process) (clk : Clock) (d : list (string * pyobj)) : pyobj :=
  VDict [
    ("processed", VBool true);
    ("image", default (VStr "unknown.jpg") (dict_get "image" d));
    ("user", default (VStr "anonymous") (dict_get "user" d));
    ("operations", VList [VStr "resize"; VStr "compress"; VStr "optimize"]);
    ("storage", VDict [
       ("provider", VStr "S3-compatible");
       ("bucket", VStr (default "default-bucket" (s3Bucket p)));
       ("configured", VBool (s3AccessKeyPresent p))]);
    ("timestamp", VStr (utcnow_iso clk))].

(** The timed block returns only on a body that is false (then [data] is
    the empty dict) or a non-empty dict. *)
Lemma process_result_returns (p : Process) (clk : Clock) (req : Request) (o : pyobj) :
  process_result p clk req = Returns o ->
  exists j d,
    get_json req = Returns j /\
    (if obj_truth j then j else VDict []) = VDict d /\
    o = result_of p clk d.
Proof.
  unfold process_result, try_bind. destruct (get_json req) as [j|e]; [|discriminate].
  intros H. exists j.
  destruct (if obj_truth j then j else VDict []) as [| | | | | |d] eqn:Hd;
    simpl in H; try discriminate.
  exists d. repeat split. injection H as <-.
  unfold result_of, s3AccessKeyPresent. now rewrite bucket_or_default.
Qed.

Lemma process_result_dict (p : Process) (clk : Clock) (req : Request)
    (j : pyobj) (d : list (string * pyobj)) :
  get_json req = Returns j ->
  (if obj_truth j then j else VDict []) = VDict d ->
  process_result p clk req = Returns (result_of p clk d).
Proof.
  intros Hj Hd. unfold process_result, try_bind. rewrite Hj, Hd. simpl.
  unfold result_of, s3AccessKeyPresent. now rewrite bucket_or_default.
Qed.

(** A 200 answer is the [jsonify] of what the timed block returned. *)
Lemma process_200_inv (p : Process) (clk : Clock) (req : Request) (m : Metrics) :
  status_code (fst (process p clk req m)) = 200 ->
  exists j d,
    get_json req = Returns j /\
    (if obj_truth j then j else VDict []) = VDict d /\
    fst (process p clk req m) = jsonify (result_of p clk d).
Proof.
  destruct (negb (truth (authorization req)) && serviceTokenPresent p) eqn:Hc.
  - rewrite (process_rejected _ _ _ _ Hc). discriminate.
  - rewrite (process_admitted _ _ _ _ Hc). cbn [fst].
    destruct (process_result p clk req) as [o|e] eqn:Hr.
    + intros _. apply process_result_returns in Hr as (j & d & Hj & Hd & ->). eauto.
    + intros H. exfalso.
      destruct (handle_exception_status e) as [E|[E|E]]; rewrite E in H; discriminate.
Qed.

(** An admitted request with a false or dict body does succeed. *)
Lemma process_succeeds (p : Process) (clk : Clock) (req : Request) (m : Metrics)
    (j : pyobj) (d : list (string * pyobj)) :
  negb (truth (authorization req)) && serviceTokenPresent p = false ->
  get_json req = Returns j ->
  (if obj_truth j then j else VDict []) = VDict d ->
  fst (process p clk req m) = jsonify (result_of p clk d).
Proof.
  intros Hc Hj Hd. rewrite (process_admitted _ _ _ _ Hc). cbn [fst].
  now rewrite (process_result_dict p clk req j d Hj Hd).
Qed.

Lemma result_image (p : Process) (clk : Clock) (d : list (string * pyobj)) :
  json_at ["image"] (jsonify (result_of p clk d))
  = Some (default (VStr "unknown.jpg") (dict_get "image" d)).
Proof. reflexivity. Qed.

Lemma result_user (p : Process) (clk : Clock) (d : list (string * pyobj)) :
  json_at ["user"] (jsonify (result_of p clk d))
  = Some (default (VStr "anonymous") (dict_get "user" d)).
Proof. reflexivity. Qed.

(** C4: a [POST /process] answered with 200 carries [operations] equal to
    resize, compress, optimize in that order, [storage.configured] equal to
    the presence of the S3 access key, [storage.bucket] equal to the
    configured bucket or "default-bucket"; with an empty or absent body the
    image is "unknown.jpg" and the user "anonymous"; an [image] and a
    [user] of the body are echoed unchanged. *)
Theorem process_success_result (p : Process) (clk : Clock) (req : Request) (m : Metrics) :
  let r := fst (process p clk req m) in
  status_code r = 200 ->
  json_at ["operations"] r =
    Some (VList [VStr "resize"; VStr "compress"; VStr "optimize"]) /\
  json_at ["storage"; "configured"] r = Some (VBool (s3AccessKeyPresent p)) /\
  json_at ["storage"; "bucket"] r =
    Some (VStr (default "default-bucket" (s3Bucket p))) /\
  (get_json req = Returns (VDict []) \/ get_json req = Returns VNone ->
   json_at ["image"] r = Some (VStr "unknown.jpg") /\
   json_at ["user"] r = Some (VStr "anonymous")) /\
  (forall d image,
      get_json req = Returns (VDict d) -> dict_get "image" d = Some image ->
      json_at ["image"] r = Some image) /\
  (forall d user,
      get_json req = Returns (VDict d) -> dict_get "user" d = Some user ->
      json_at ["user"] r = Some user).
Proof.
  cbv zeta. intros H. apply process_200_inv in H as (j & d & Hj & Hd & ->).
  split; [reflexivity|]. split; [reflexivity|]. split; [reflexivity|]. split.
  - intros [E|E]; rewrite E in Hj; injection Hj as <-; simpl in Hd;
      injection Hd as <-; split; reflexivity.
  - split.
    + intros d' image Hd' Himage. rewrite Hd' in Hj. injection Hj as <-.
      destruct d' as [|kv d']; [discriminate|]. simpl in Hd. injection Hd as <-.
      now rewrite result_image, Himage.
    + intros d' user Hd' Huser. rewrite Hd' in Hj. injection Hj as <-.
      destruct d' as [|kv d']; [discriminate|]. simpl in Hd. injection Hd as <-.
      now rewrite result_user, Huser.
Qed.

Lemma process_success_result_witness :
  let r := fst (process (boot full_env 0) noon cat_request no_metrics) in
  status_code r = 200 /\
  json_at ["operations"] r =
    Some (VList [VStr "resize"; VStr "compress"; VStr "optimize"]) /\
  json_at ["storage"; "configured"] r = Some (VBool true) /\
  json_at ["storage"; "bucket"] r = Some (VStr "images") /\
  json_at ["image"] r = Some (VStr "cat.jpg") /\
  json_at ["user"] r = Some (VStr "alice").
Proof.
  cbv zeta.
  pose proof (process_success_result (boot full_env 0) noon cat_request no_metrics
                eq_refl) as (Hops & Hconf & Hbucket & _ & Himage & Huser).
  split; [reflexivity|].
  split; [exact Hops|]. split; [exact Hconf|]. split; [exact Hbucket|]. split.
  - exact (Himage _ (VStr "cat.jpg") eq_refl eq_refl).
  - exact (Huser _ (VStr "alice") eq_refl eq_refl).
Defined.

(** The empty body and the absent body: 200 with the two defaults. *)
Example process_empty_body :
  let r := fst (process (boot ∅ 0) noon
                  {| authorization := None; get_json := Returns (VDict []) |}
                  no_metrics) in
  status_code r = 200 /\
  json_at ["image"] r = Some (VStr "unknown.jpg") /\
  json_at ["user"] r = Some (VStr "anonymous") /\
  json_at ["storage"; "bucket"] r = Some (VStr "default-bucket") /\
  json_at ["storage"; "configured"] r = Some (VBool false).
Proof. vm_compute. auto 6. Qed.

Example process_absent_body :
  let r := fst (process (boot full_env 0) noon
                  {| authorization := Some "x"; get_json := Returns VNone |}
                  no_metrics) in
  status_code r = 200 /\
  json_at ["image"] r = Some (VStr "unknown.jpg") /\
  json_at ["user"] r = Some (VStr "anonymous").
Proof. vm_compute. auto. Qed.


(** ** The paths of [process] past the claims *)

Lemma admitted_true (p : Process) (req : Request) :
  admitted p req = true <->
  negb (truth (authorization req)) && serviceTokenPresent p = false.
Proof. unfold admitted, serviceTokenPresent. apply negb_true_iff. Qed.

Lemma admitted_false (p : Process) (req : Request) :
  admitted p req = false <->
  negb (truth (authorization req)) && serviceTokenPresent p = true.
Proof. unfold admitted, serviceTokenPresent. apply negb_false_iff. Qed.

(** [data] of line 90 for a body that is false. *)
Lemma data_of_false (j : pyobj) :
  obj_truth j = false -> (if obj_truth j then j else VDict []) = VDict [].
Proof. now intros ->. Qed.

(** The timed block on a true body that is not a dict: [data.get] raises. *)
Lemma process_result_not_dict (p : Process) (clk : Clock) (req : Request) (j : pyobj) :
  get_json req = Returns j -> obj_truth j = true -> (forall d, j <> VDict d) ->
  process_result p clk req = Raises AttributeError.
Proof.
  intros Hj Ht Hd. unfold process_result, try_bind. rewrite Hj, Ht.
  destruct j; try reflexivity. now destruct (Hd d).
Qed.

Lemma process_result_raises (p : Process) (clk : Clock) (req : Request) (e : exn) :
  get_json req = Raises e -> process_result p clk req = Raises e.
Proof. intros Hj. unfold process_result, try_bind. now rewrite Hj. Qed.

(** What the timed block does, by the decoded body. *)
Lemma process_result_cases (p : Process) (clk : Clock) (req : Request) :
  (exists e, get_json req = Raises e /\ process_result p clk req = Raises e) \/
  (exists j d, get_json req = Returns j /\
               (obj_truth j = false \/ j = VDict d) /\
               (if obj_truth j then j else VDict []) = VDict d /\
               process_result p clk req = Returns (result_of p clk d)) \/
  (exists j, get_json req = Returns j /\ obj_truth j = true /\
             (forall d, j <> VDict d) /\
             process_result p clk req = Raises AttributeError).
Proof.
  destruct (get_json req) as [j|e] eqn:Hj.
  - right. destruct (obj_truth j) eqn:Ht.
    + destruct j as [| | | | | |d];
        try (right; eexists; repeat split;
             [exact Ht | discriminate
             | apply (process_result_not_dict p clk req _ Hj Ht); discriminate]).
      left. exists (VDict d), d. repeat split; auto.
      * now rewrite Ht.
      * apply (process_result_dict p clk req (VDict d) d Hj). now rewrite Ht.
    + left. exists j, []. repeat split; auto.
      * now rewrite Ht.
      * apply (process_result_dict p clk req j [] Hj). now rewrite Ht.
  - left. exists e. split; [reflexivity|]. now apply process_result_raises.
Qed.

(** X1: an admitted request whose decoded body is false for Python (null,
    false, 0, the empty string, list or dict) is processed as the empty
    dict: 200 with the image "unknown.jpg" and the user "anonymous". *)
Theorem process_false_body_as_empty
    (p : Process) (clk : Clock) (req : Request) (m : Metrics) (j : pyobj) :
  admitted p req = true -> get_json req = Returns j -> obj_truth j = false ->
  process p clk req m =
    process p clk {| authorization := authorization req;
                     get_json := Returns (VDict []) |} m /\
  status_code (fst (process p clk req m)) = 200 /\
  json_at ["image"] (fst (process p clk req m)) = Some (VStr "unknown.jpg") /\
  json_at ["user"] (fst (process p clk req m)) = Some (VStr "anonymous").
Proof.
  intros Ha Hj Ht. apply admitted_true in Ha.
  assert (E : process p clk req m =
              (jsonify (result_of p clk []),
               snd (observe (elapsed clk) (snd (inc "POST" "/process" m))))).
  { rewrite (process_admitted _ _ _ _ Ha).
    now rewrite (process_result_dict p clk req j [] Hj (data_of_false j Ht)). }
  rewrite E. split; [|repeat split].
  set (req0 := {| authorization := authorization req;
                  get_json := Returns (VDict []) |}).
  rewrite (process_admitted p clk req0 m Ha).
  now rewrite (process_result_dict p clk req0 (VDict []) [] eq_refl eq_refl).
Qed.

Lemma process_false_body_as_empty_witness :
  status_code (fst (process (boot full_env 0) noon zero_request no_metrics)) = 200 /\
  json_at ["image"] (fst (process (boot full_env 0) noon zero_request no_metrics))
    = Some (VStr "unknown.jpg").
Proof.
  destruct (process_false_body_as_empty (boot full_env 0) noon zero_request
              no_metrics (VInt 0) eq_refl eq_refl eq_refl) as (_ & Hs & Hi & _).
  split; [exact Hs | exact Hi].
Defined.

(** X2: an admitted request whose decoded body is true for Python without
    being a dict (a number, a string, a list, true) is answered with the
    JSON of the 500 handler: [data.get] raises; the attempt is counted and
    its duration recorded. *)
Theorem process_body_not_dict_is_500
    (p : Process) (clk : Clock) (req : Request) (m : Metrics) (j : pyobj) :
  admitted p req = true -> get_json req = Returns j -> obj_truth j = true ->
  (forall d, j <> VDict d) ->
  process p clk req m =
    (internal_error, snd (observe (elapsed clk) (snd (inc "POST" "/process" m)))).
Proof.
  intros Ha Hj Ht Hd. apply admitted_true in Ha.
  rewrite (process_admitted _ _ _ _ Ha).
  now rewrite (process_result_not_dict p clk req j Hj Ht Hd).
Qed.

Lemma process_body_not_dict_is_500_witness :
  process (boot full_env 0) noon list_request no_metrics =
  (internal_error,
   snd (observe (elapsed noon) (snd (inc "POST" "/process" no_metrics)))).
Proof.
  apply (process_body_not_dict_is_500 (boot full_env 0) noon list_request
           no_metrics (VList [VStr "cat.jpg"]) eq_refl eq_refl eq_refl).
  intros d. discriminate.
Defined.

(** X3: [POST /process] answers 200 exactly when the request is admitted
    and [get_json] returns a value that is false for Python or a dict. *)
Theorem process_200_iff (p : Process) (clk : Clock) (req : Request) (m : Metrics) :
  status_code (fst (process p clk req m)) = 200 <->
  admitted p req = true /\
  exists j, get_json req = Returns j /\ (obj_truth j = false \/ exists d, j = VDict d).
Proof.
  split.
  - intros H. destruct (admitted p req) eqn:Ha.
    + split; [reflexivity|].
      apply process_200_inv in H as (j & d & Hj & Hd & _).
      exists j. split; [exact Hj|].
      destruct (obj_truth j); [right; eauto | now left].
    + apply admitted_false in Ha. rewrite (process_rejected _ _ _ _ Ha) in H.
      discriminate.
  - intros (Ha & j & Hj & Hfd). apply admitted_true in Ha.
    destruct Hfd as [Hf|[d ->]].
    + now rewrite (process_succeeds p clk req m j [] Ha Hj (data_of_false j Hf)).
    + destruct d as [|kv d].
      * now rewrite (process_succeeds p clk req m _ [] Ha Hj eq_refl).
      * now rewrite (process_succeeds p clk req m _ (kv :: d) Ha Hj eq_refl).
Qed.

(** X4: an abort of [get_json] on an admitted request is answered with the
    framework's page under the code of the abort, 400 or 415, not with JSON;
    and these two codes arise in no other way. *)
Theorem process_abort_iff (p : Process) (clk : Clock) (req : Request) (m : Metrics) :
  let r := fst (process p clk req m) in
  (status_code r = 400 <-> admitted p req = true /\ get_json req = Raises BadRequest) /\
  (status_code r = 415 <->
   admitted p req = true /\ get_json req = Raises UnsupportedMediaType) /\
  (status_code r = 400 \/ status_code r = 415 -> body r = ErrorPage).
Proof.
  cbv zeta. destruct (admitted p req) eqn:Ha.
  - apply admitted_true in Ha. rewrite (process_admitted _ _ _ _ Ha). cbn [fst].
    destruct (process_result_cases p clk req)
      as [(e & Hj & ->)|[(j & d & Hj & _ & _ & ->)|(j & Hj & _ & _ & ->)]];
      rewrite Hj; [destruct e|..]; simpl;
      (split; [|split]);
      try (split; [intros H; try discriminate; now split | intros [_ H]; congruence]);
      try (intros [H|H]; try discriminate; reflexivity).
  - apply admitted_false in Ha. rewrite (process_rejected _ _ _ _ Ha). simpl.
    (split; [|split]);
      try (split; [intros H; discriminate | intros [H _]; discriminate]).
    intros [H|H]; discriminate.
Qed.

(** X5: a duration is recorded by [POST /process] exactly for the admitted
    requests, also when the timed block raises; a rejected request records
    none. *)
Theorem process_observes_iff_admitted
    (p : Process) (clk : Clock) (req : Request) (m : Metrics) :
  processing_time (snd (process p clk req m)) =
    (if admitted p req then elapsed clk :: processing_time m else processing_time m) /\
  (status_code (fst (process p clk req m)) <> 401 <->
   processing_time (snd (process p clk req m)) = elapsed clk :: processing_time m).
Proof.
  destruct (admitted p req) eqn:Ha.
  - apply admitted_true in Ha. split.
    + now rewrite (process_admitted _ _ _ _ Ha).
    + split.
      * intros _. now rewrite (process_admitted _ _ _ _ Ha).
      * intros _ H. apply process_401_iff in H. congruence.
  - apply admitted_false in Ha. split.
    + now rewrite (process_rejected _ _ _ _ Ha).
    + rewrite (process_rejected _ _ _ _ Ha). simpl. split.
      * intros H. now destruct H.
      * intros H. apply (f_equal (@length Q)) in H. simpl in H. lia.
Qed.

(** ** Agreement between the endpoints *)

Lemma status_eq (p : Process) (clk : Clock) (m : Metrics) :
  status p clk m =
  (jsonify (VDict [
     ("operational", VBool true);
     ("timestamp", VStr (utcnow_iso clk));
     ("processed_images", VInt 42);
     ("using_secrets", VBool (serviceTokenPresent p && s3AccessKeyPresent p))]),
   snd (inc "GET" "/status" m)).
Proof.
  unfold status, bind, ret, serviceTokenPresent, s3AccessKeyPresent; simpl.
  now rewrite truth_py_and.
Qed.

Lemma storage_info_eq (p : Process) (m : Metrics) :
  storage_info p m =
  (if s3AccessKeyPresent p
   then jsonify (VDict [
          ("configured", VBool true);
          ("provider", VStr "S3-compatible");
          ("bucket", VStr (default "default-bucket" (s3Bucket p)));
          ("region", VStr (default "us-east-1" (environ p !! "S3_REGION")));
          ("operations_available",
             VList [VStr "upload"; VStr "download"; VStr "list"; VStr "delete"]);
          ("message", VStr "Using S3 credentials from Kubernetes Secrets")])
   else storage_unconfigured, m).
Proof.
  unfold storage_info, s3AccessKeyPresent. rewrite bucket_or_default.
  destruct (truth (S3_ACCESS_KEY p)); reflexivity.
Qed.

(** X6: [GET /ready] answers 200 exactly when [GET /status] reports
    [using_secrets] true: [all([...])] of the one and [bool(... and ...)] of
    the other decide alike. *)
Theorem ready_iff_using_secrets
    (p : Process) (clk : Clock) (m m' : Metrics) :
  status_code (fst (ready p m)) = 200 <->
  json_at ["using_secrets"] (fst (status p clk m')) = Some (VBool true).
Proof.
  rewrite ready_eq, status_eq. unfold json_at; simpl.
  destruct (serviceTokenPresent p && s3AccessKeyPresent p); simpl;
    split; intros H; try discriminate; reflexivity.
Qed.

(** X7: a process that is ready has its storage configured: when
    [GET /ready] answers 200, [GET /storage-info] answers 200 too, never the
    500 of a missing S3 key. *)
Theorem ready_implies_storage_configured (p : Process) (m m' : Metrics) :
  status_code (fst (ready p m)) = 200 ->
  status_code (fst (storage_info p m')) = 200 /\
  json_at ["configured"] (fst (storage_info p m')) = Some (VBool true).
Proof.
  rewrite ready_eq, storage_info_eq. simpl.
  destruct (serviceTokenPresent p), (s3AccessKeyPresent p); simpl;
    intros H; try discriminate; split; reflexivity.
Qed.

Lemma ready_implies_storage_configured_witness :
  status_code (fst (ready (boot full_env 0) no_metrics)) = 200 /\
  status_code (fst (storage_info (boot full_env 0) no_metrics)) = 200.
Proof.
  split; [reflexivity|].
  exact (proj1 (ready_implies_storage_configured (boot full_env 0)
                  no_metrics no_metrics eq_refl)).
Defined.

(** The converse fails: with the S3 key alone the storage is configured and
    the process is not ready. *)
Example storage_configured_not_ready :
  status_code (fst (storage_info (boot s3_only_env 0) no_metrics)) = 200 /\
  status_code (fst (ready (boot s3_only_env 0) no_metrics)) = 503.
Proof. split; reflexivity. Qed.

(** X8: the [storage] block of a successful [POST /process] agrees with
    [GET /storage-info]: [storage.configured] is true exactly when
    storage-info answers 200, and then both name the same bucket. *)
Theorem process_storage_agrees_with_storage_info
    (p : Process) (clk : Clock) (req : Request) (m m' : Metrics) :
  let r := fst (process p clk req m) in
  let s := fst (storage_info p m') in
  status_code r = 200 ->
  (json_at ["storage"; "configured"] r = Some (VBool true) <-> status_code s = 200) /\
  (status_code s = 200 -> json_at ["storage"; "bucket"] r = json_at ["bucket"] s) /\
  (status_code s = 200 -> json_at ["storage"; "provider"] r = json_at ["provider"] s).
Proof.
  cbv zeta. intros H. apply process_200_inv in H as (j & d & _ & _ & ->).
  rewrite storage_info_eq. unfold json_at; simpl.
  destruct (s3AccessKeyPresent p); simpl.
  - repeat split; reflexivity.
  - split; [|split]; try (intros H; discriminate).
    split; intros H; discriminate.
Qed.

Lemma process_storage_agrees_with_storage_info_witness :
  json_at ["storage"; "bucket"]
    (fst (process (boot full_env 0) noon cat_request no_metrics)) =
  json_at ["bucket"] (fst (storage_info (boot full_env 0) no_metrics)).
Proof.
  destruct (process_storage_agrees_with_storage_info (boot full_env 0) noon
              cat_request no_metrics no_metrics eq_refl) as (_ & Hb & _).
  exact (Hb eq_refl).
Defined.

(** ** One process, many calls *)

Lemma run_cons (rnd : Q -> Q) (p : Process) (clk : Clock) (c : Call)
    (rest : list (Clock * Call)) (m : Metrics) :
  run rnd p ((clk, c) :: rest) m =
  (fst (serve rnd p clk c m) :: fst (run rnd p rest (snd (serve rnd p clk c m))),
   snd (run rnd p rest (snd (serve rnd p clk c m)))).
Proof.
  simpl. unfold bind, ret.
  destruct (serve rnd p clk c m) as [r m1]. simpl.
  destruct (run rnd p rest m1) as [rs m2]. reflexivity.
Qed.

(** The metrics after one call. *)
Lemma serve_metrics (rnd : Q -> Q) (p : Process) (clk : Clock) (c : Call) (m : Metrics) :
  snd (serve rnd p clk c m) =
  match c with
  | CallStatus => snd (inc "GET" "/status" m)
  | CallProcess req =>
      if admitted p req
      then snd (observe (elapsed clk) (snd (inc "POST" "/process" m)))
      else snd (inc "POST" "/process" m)
  | _ => m
  end.
Proof.
  destruct c; simpl; try reflexivity.
  - now rewrite ready_eq.
  - destruct (admitted p req) eqn:Ha.
    + apply admitted_true in Ha. now rewrite (process_admitted _ _ _ _ Ha).
    + apply admitted_false in Ha. now rewrite (process_rejected _ _ _ _ Ha).
  - now rewrite storage_info_eq.
Qed.

(** The response of one call does not read the metrics. *)
Lemma serve_response (rnd : Q -> Q) (p : Process) (clk : Clock) (c : Call)
    (m m' : Metrics) :
  fst (serve rnd p clk c m) = fst (serve rnd p clk c m').
Proof.
  destruct c; simpl; try reflexivity.
  - now rewrite !ready_eq.
  - rewrite !process_eq.
    now destruct (negb (truth (authorization req)) && serviceTokenPresent p).
  - now rewrite !storage_info_eq.
Qed.

Lemma process_result_public (p1 p2 : Process) (clk : Clock) (req : Request) :
  s3Bucket p1 = s3Bucket p2 -> s3AccessKeyPresent p1 = s3AccessKeyPresent p2 ->
  process_result p1 clk req = process_result p2 clk req.
Proof.
  intros Hb Hk. unfold s3AccessKeyPresent in Hk.
  unfold process_result. now rewrite !bucket_or_default, Hb, Hk.
Qed.

Lemma serve_public (rnd : Q -> Q) (p1 p2 : Process) (clk : Clock) (c : Call)
    (m : Metrics) :
  same_public p1 p2 -> serve rnd p1 clk c m = serve rnd p2 clk c m.
Proof.
  intros (Ht & Hk & Hb & Hv & Hr & Hs). destruct c; simpl.
  - unfold health, getenv_or. now rewrite Hv, Hs.
  - now rewrite !ready_eq, Ht, Hk.
  - reflexivity.
  - now rewrite !status_eq, Ht, Hk.
  - rewrite !process_eq, Ht. now rewrite (process_result_public p1 p2 clk req Hb Hk).
  - now rewrite !storage_info_eq, Hk, Hb, Hr.
Qed.

(** X9: the responses and the metrics of a process depend on its secrets
    only through the presence of the service token and of the S3 access
    key: two processes that agree on these two facts, on the bucket, on
    [VERSION] and [S3_REGION] and on the start time answer every sequence of
    calls alike, whatever their JWT secret, S3 secret key, and the values of
    the token and of the access key. *)
Theorem responses_reveal_presence_only
    (rnd : Q -> Q) (p1 p2 : Process) (calls : list (Clock * Call)) (m : Metrics) :
  same_public p1 p2 -> run rnd p1 calls m = run rnd p2 calls m.
Proof.
  intros H. revert m. induction calls as [|[clk c] rest IH]; intros m.
  - reflexivity.
  - rewrite !run_cons, (serve_public rnd p1 p2 clk c m H). now rewrite IH.
Qed.

Lemma responses_reveal_presence_only_witness :
  JWT_SECRET (boot full_env 0) <> JWT_SECRET (boot other_secrets_env 0) /\
  IMAGE_SERVICE_TOKEN (boot full_env 0) <> IMAGE_SERVICE_TOKEN (boot other_secrets_env 0) /\
  S3_ACCESS_KEY (boot full_env 0) <> S3_ACCESS_KEY (boot other_secrets_env 0) /\
  S3_SECRET_KEY (boot full_env 0) <> S3_SECRET_KEY (boot other_secrets_env 0) /\
  run round_ms (boot full_env 0) busy_day no_metrics =
  run round_ms (boot other_secrets_env 0) busy_day no_metrics.
Proof.
  split; [vm_compute; discriminate|]. split; [vm_compute; discriminate|].
  split; [vm_compute; discriminate|]. split; [vm_compute; discriminate|].
  apply (responses_reveal_presence_only round_ms (boot full_env 0)
           (boot other_secrets_env 0) busy_day no_metrics).
  repeat split.
Defined.

(** X10: no response reads the metrics: a sequence of calls gets the same
    responses from any two states of the counters and of the histogram. *)
Theorem responses_ignore_metrics
    (rnd : Q -> Q) (p : Process) (calls : list (Clock * Call)) (m m' : Metrics) :
  fst (run rnd p calls m) = fst (run rnd p calls m').
Proof.
  revert m m'. induction calls as [|[clk c] rest IH]; intros m m'.
  - reflexivity.
  - rewrite !run_cons. cbn [fst].
    rewrite (serve_response rnd p clk c m m'). f_equal. apply IH.
Qed.

(** X11: after any sequence of calls the (POST, /process) counter has grown
    by the number of [process] calls, rejected ones included, and the
    (GET, /status) counter by the number of [status] calls. *)
Theorem counters_count_calls
    (rnd : Q -> Q) (p : Process) (calls : list (Clock * Call)) (m : Metrics) :
  let m' := snd (run rnd p calls m) in
  counter_value m' "POST" "/process"
    = (counter_value m "POST" "/process" + count_calls is_process calls)%nat /\
  counter_value m' "GET" "/status"
    = (counter_value m "GET" "/status" + count_calls is_status calls)%nat.
Proof.
  cbv zeta. revert m. induction calls as [|[clk c] rest IH]; intros m.
  - simpl. split; lia.
  - rewrite run_cons. cbn [snd].
    destruct (IH (snd (serve rnd p clk c m))) as [IHp IHs].
    rewrite IHp, IHs, serve_metrics. clear IH IHp IHs.
    destruct c; simpl count_calls; try (split; lia).
    + rewrite counter_value_inc.
      rewrite counter_value_inc_other by discriminate. split; lia.
    + destruct (admitted p req); rewrite ?counter_value_observe;
        rewrite counter_value_inc;
        rewrite counter_value_inc_other by discriminate; split; lia.
Qed.

(** X12: every other label pair keeps its entry in the counter registry
    through any sequence of calls: the views create and increment no child
    but (GET, /status) and (POST, /process). *)
Theorem other_counters_untouched
    (rnd : Q -> Q) (p : Process) (calls : list (Clock * Call)) (m : Metrics)
    (method endpoint : string) :
  (method, endpoint) <> ("GET", "/status") ->
  (method, endpoint) <> ("POST", "/process") ->
  request_count (snd (run rnd p calls m)) !! (method, endpoint)
    = request_count m !! (method, endpoint).
Proof.
  intros Hs Hp. revert m. induction calls as [|[clk c] rest IH]; intros m.
  - reflexivity.
  - rewrite run_cons. cbn [snd]. rewrite IH, serve_metrics.
    destruct c; try reflexivity.
    + simpl. now rewrite lookup_insert_ne by congruence.
    + destruct (admitted p req); simpl; now rewrite lookup_insert_ne by congruence.
Qed.

Lemma other_counters_untouched_witness :
  request_count (snd (run round_ms (boot full_env 0) busy_day no_metrics))
    !! ("GET", "/health") = None.
Proof.
  rewrite (other_counters_untouched round_ms (boot full_env 0) busy_day no_metrics
             "GET" "/health"); [reflexivity | discriminate | discriminate].
Defined.

(** X13: the histogram holds one duration per admitted [process] call of
    the sequence, and nothing else adds to it. *)
Theorem samples_count_admitted_calls
    (rnd : Q -> Q) (p : Process) (calls : list (Clock * Call)) (m : Metrics) :
  length (processing_time (snd (run rnd p calls m)))
    = (length (processing_time m) + count_calls (is_admitted_process p) calls)%nat.
Proof.
  revert m. induction calls as [|[clk c] rest IH]; intros m.
  - simpl. lia.
  - rewrite run_cons. cbn [snd]. rewrite IH, serve_metrics.
    destruct c; simpl; try lia.
    destruct (admitted p req); simpl; lia.
Qed.

Lemma count_admitted_le (p : Process) (calls : list (Clock * Call)) :
  (count_calls (is_admitted_process p) calls <= count_calls is_process calls)%nat.
Proof.
  induction calls as [|[clk c] rest IH]; simpl; [lia|].
  destruct c; simpl; try lia. destruct (admitted p req); lia.
Qed.

(** X14: the histogram never holds more durations than the
    (POST, /process) counter counts attempts: a state with this property
    keeps it through any sequence of calls. *)
Theorem samples_le_attempts
    (rnd : Q -> Q) (p : Process) (calls : list (Clock * Call)) (m : Metrics) :
  (length (processing_time m) <= counter_value m "POST" "/process")%nat ->
  (length (processing_time (snd (run rnd p calls m)))
     <= counter_value (snd (run rnd p calls m)) "POST" "/process")%nat.
Proof.
  intros H. revert m H. induction calls as [|[clk c] rest IH]; intros m H.
  - exact H.
  - rewrite run_cons. cbn [snd]. apply IH. rewrite serve_metrics.
    destruct c; try exact H.
    + rewrite counter_value_inc_other by discriminate. exact H.
    + destruct (admitted p req); rewrite ?counter_value_observe, counter_value_inc;
        simpl; lia.
Qed.

Lemma samples_le_attempts_witness :
  (length (processing_time (snd (run round_ms (boot full_env 0) busy_day no_metrics)))
     <= counter_value (snd (run round_ms (boot full_env 0) busy_day no_metrics))
          "POST" "/process")%nat.
Proof.
  apply (samples_le_attempts round_ms (boot full_env 0) busy_day no_metrics).
  vm_compute. apply le_n.
Defined.

(** X15: a sequence of [health], [ready], [index] and [storage_info] calls
    leaves the metrics as they were. *)
Theorem unmetered_calls_leave_metrics
    (rnd : Q -> Q) (p : Process) (calls : list (Clock * Call)) (m : Metrics) :
  count_calls is_status calls = 0%nat -> count_calls is_process calls = 0%nat ->
  snd (run rnd p calls m) = m.
Proof.
  revert m. induction calls as [|[clk c] rest IH]; intros m Hs Hp.
  - reflexivity.
  - rewrite run_cons. cbn [snd]. simpl in Hs, Hp.
    destruct c; simpl in Hs, Hp; try discriminate;
      rewrite serve_metrics; now apply IH.
Qed.

Lemma unmetered_calls_leave_metrics_witness :
  snd (run round_ms (boot full_env 0) quiet_day no_metrics) = no_metrics.
Proof.
  apply (unmetered_calls_leave_metrics round_ms (boot full_env 0) quiet_day
           no_metrics); reflexivity.
Defined.

(** ** The start-up log *)

(** X16: the start-up log announces readiness: it shows both the service
    token and the S3 credentials as configured exactly when [GET /ready]
    will answer 200. *)
Theorem startup_log_announces_readiness (p : Process) (m : Metrics) :
  In "  Service Token: ✅ Configured" (startup_log p) /\
  In "  S3 Credentials: ✅ Configured" (startup_log p) <->
  status_code (fst (ready p m)) = 200.
Proof.
  rewrite ready_eq. unfold startup_log, serviceTokenPresent, s3AccessKeyPresent.
  destruct (truth (JWT_SECRET p)), (truth (IMAGE_SERVICE_TOKEN p)),
    (truth (S3_ACCESS_KEY p)); cbn;
    (split; [intros [H1 H2] | intros H]);
    first
      [ reflexivity
      | discriminate
      | split; repeat (first [left; reflexivity | right])
      | exfalso;
        repeat match goal with
               | H : _ \/ _ |- _ => destruct H
               | H : False |- _ => destruct H
               | H : _ = _ |- _ => discriminate H
               end ].
Qed.

(** With the S3 key alone the log shows the token as missing. *)
Example startup_log_s3_only :
  startup_log (boot s3_only_env 0) =
  [ "🔐 Image Service Configuration:"; "  JWT Secret: ❌ Missing";
    "  Service Token: ❌ Missing"; "  S3 Credentials: ✅ Configured" ].
Proof. reflexivity. Qed.
